(** * ThorlabsSC10: the Tango device server of the Thorlabs SC10 shutter
      controller, as a shallow embedding.

    The device class of [ThorlabsSC10.py] is a record of instance fields;
    each method is a computation in a state-and-exception monad over that
    record.  The serial line is an environment: three functions that answer
    a request from the history of everything put on the line so far. *)

From Stdlib Require Import ZArith List Bool Ascii String Lia PrimFloat.
From Stdlib Require Import Decimal DecimalString DecimalPos DecimalZ.
Import ListNotations.

#[local] Open Scope string_scope.
#[local] Open Scope Z_scope.

(** ** Python's text/integer conversions *)

Module Py.

(** ['{:d}'.format(v)] for an [int]: the shortest decimal numeral, with a
    leading minus sign for negative values. *)
Definition format_d (v : Z) : string := NilZero.string_of_int (Z.to_int v).

(** A string stands for the [str] whose code points are its character
    codes, one character for one code point, all below 256. *)

(** The characters that [int] skips at both ends of a [str]: the ASCII
    white space, codes 9 to 13 and 32, and the two white-space code points
    between 128 and 255, codes 133 and 160.  The separators 28 to 31 are
    not among them. *)
Definition is_space (a : ascii) : bool :=
  let code := N_of_ascii a in
  ((9 <=? code) && (code <=? 13) || (code =? 32)
   || (code =? 133) || (code =? 160))%N.

(** The value of a decimal digit: the characters from code 48 to 57. *)
Definition digit_val (a : ascii) : option Z :=
  let code := Z.of_N (N_of_ascii a) in
  if ((48 <=? code) && (code <=? 57))%bool then Some (code - 48) else None.

Fixpoint lstrip (s : string) : string :=
  match s with
  | EmptyString => EmptyString
  | String a s' => if is_space a then lstrip s' else s
  end.

Fixpoint rstrip (s : string) : string :=
  match s with
  | EmptyString => EmptyString
  | String a s' =>
      match rstrip s' with
      | EmptyString => if is_space a then EmptyString else String a EmptyString
      | r => String a r
      end
  end.

Definition strip (s : string) : string := rstrip (lstrip s).

(** The digits of a base-10 literal, read left to right.  A single
    underscore may separate two digits; [after_digit] records that the
    character just read was a digit, so that a literal neither starts nor
    ends with an underscore and never has two in a row. *)
Fixpoint digits (acc : Z) (after_digit : bool) (s : string) : option Z :=
  match s with
  | EmptyString => if after_digit then Some acc else None
  | String a s' =>
      match digit_val a with
      | Some d => digits (10 * acc + d) true s'
      | None =>
          if (Ascii.eqb a "_" && after_digit)%bool
          then digits acc false s'
          else None
      end
  end.

(** [int(s)] for a [str] in base 10: [None] stands for [ValueError].
    White space is skipped at both ends only; a sign may follow; the rest
    is digits.  No code point between 128 and 255 is a decimal digit, so
    each of them other than 133 and 160 makes the string no literal.  A
    [str] with a code point from 256 on cannot be written as a string
    here, and the interpreter's optional cap on the number of digits is
    not part of the model. *)
Definition int (s : string) : option Z :=
  match strip s with
  | String "+" s' => digits 0 false s'
  | String "-" s' => option_map Z.opp (digits 0 false s')
  | s' => digits 0 false s'
  end.

(** [bool(n)] for an [int]. *)
Definition bool (n : Z) : Datatypes.bool := negb (n =? 0).

(** A string without any white-space character: [strip] leaves it alone. *)
Fixpoint no_space (s : string) : Datatypes.bool :=
  match s with
  | EmptyString => true
  | String a s' => negb (is_space a) && no_space s'
  end.

End Py.

(** ** The enumerations of the module *)

Module Mode.
Inductive t := manual | auto | single | repeat | external.
Definition value (m : t) : Z :=
  match m with
  | manual => 0 | auto => 1 | single => 2 | repeat => 3 | external => 4
  end.
End Mode.

Module TriggerMode.
Inductive t := internal | external.
Definition value (m : t) : Z :=
  match m with internal => 0 | external => 1 end.
End TriggerMode.

Module ExTriggerMode.
Inductive t := shutter | controller.
Definition value (m : t) : Z :=
  match m with shutter => 0 | controller => 1 end.
End ExTriggerMode.

Module BaudRate.
Inductive t := _9600 | _115200.
Definition value (b : t) : Z :=
  match b with _9600 => 0 | _115200 => 1 end.
End BaudRate.

(** ** What the module uses of Tango and of the instrument library *)

(** [tango.DevState]. *)
Inductive DevState :=
  | ON | OFF | CLOSE | OPEN | INSERT | EXTRACT | MOVING | STANDBY
  | FAULT | INIT | RUNNING | ALARM | DISABLE | UNKNOWN.

(** The logging streams of a Tango device. *)
Inductive stream := Debug | Info | Error.

(** The exceptions that can occur: a missing attribute, a string that is
    not an integer literal, and whatever the instrument library raises
    (port cannot be opened, time-out, wrong acknowledgement or prompt). *)
Inductive exn :=
  | AttributeError (name : string)
  | ValueError
  | InstrumentError (what : string).

(** The instrument object that [open_serial] returns.  The module touches
    one attribute of it, [prompt]. *)
Record SC10 := { prompt : option string }.

(** What goes over the serial line, in the order it happens. *)
Inductive event :=
  | Opened (port : string) (baud : Z) (timeout : float)
  | Query (cmd : string)
  | SendCmd (cmd : string).

(** The serial line and the controller behind it.  Each request is
    answered, or fails, as a function of everything that happened on the
    line before it. *)
Record Line := {
  connect : list event -> string -> Z -> float -> option exn;
  answer : list event -> SC10 -> string -> exn + string;
  accept : list event -> SC10 -> string -> option exn
}.

(** ** The device object *)

(** The instance: its three device properties, the three private status
    fields, the instrument (absent until [init_device] has bound it, and
    again after [del]), the Tango state and status, what was written to the
    logging streams, and the traffic on the serial line so far. *)
Record ThorlabsSC10 := {
  Port : string;
  Baudrate : Z;
  Timeout : float;
  __enabled : bool;
  __open : bool;
  __interlock : bool;
  sc : option SC10;
  state : DevState;
  status : string;
  streams : list (stream * string);
  wire : list event
}.

Definition with_enabled (b : bool) (d : ThorlabsSC10) : ThorlabsSC10 :=
  {| Port := Port d; Baudrate := Baudrate d; Timeout := Timeout d;
     __enabled := b; __open := __open d; __interlock := __interlock d;
     sc := sc d; state := state d; status := status d;
     streams := streams d; wire := wire d |}.

Definition with_open (b : bool) (d : ThorlabsSC10) : ThorlabsSC10 :=
  {| Port := Port d; Baudrate := Baudrate d; Timeout := Timeout d;
     __enabled := __enabled d; __open := b; __interlock := __interlock d;
     sc := sc d; state := state d; status := status d;
     streams := streams d; wire := wire d |}.

Definition with_interlock (b : bool) (d : ThorlabsSC10) : ThorlabsSC10 :=
  {| Port := Port d; Baudrate := Baudrate d; Timeout := Timeout d;
     __enabled := __enabled d; __open := __open d; __interlock := b;
     sc := sc d; state := state d; status := status d;
     streams := streams d; wire := wire d |}.

Definition with_sc (o : option SC10) (d : ThorlabsSC10) : ThorlabsSC10 :=
  {| Port := Port d; Baudrate := Baudrate d; Timeout := Timeout d;
     __enabled := __enabled d; __open := __open d;
     __interlock := __interlock d;
     sc := o; state := state d; status := status d;
     streams := streams d; wire := wire d |}.

Definition with_state (s : DevState) (d : ThorlabsSC10) : ThorlabsSC10 :=
  {| Port := Port d; Baudrate := Baudrate d; Timeout := Timeout d;
     __enabled := __enabled d; __open := __open d;
     __interlock := __interlock d;
     sc := sc d; state := s; status := status d;
     streams := streams d; wire := wire d |}.

Definition with_status (s : string) (d : ThorlabsSC10) : ThorlabsSC10 :=
  {| Port := Port d; Baudrate := Baudrate d; Timeout := Timeout d;
     __enabled := __enabled d; __open := __open d;
     __interlock := __interlock d;
     sc := sc d; state := state d; status := s;
     streams := streams d; wire := wire d |}.

Definition with_streams (l : list (stream * string)) (d : ThorlabsSC10)
  : ThorlabsSC10 :=
  {| Port := Port d; Baudrate := Baudrate d; Timeout := Timeout d;
     __enabled := __enabled d; __open := __open d;
     __interlock := __interlock d;
     sc := sc d; state := state d; status := status d;
     streams := l; wire := wire d |}.

Definition with_wire (l : list event) (d : ThorlabsSC10) : ThorlabsSC10 :=
  {| Port := Port d; Baudrate := Baudrate d; Timeout := Timeout d;
     __enabled := __enabled d; __open := __open d;
     __interlock := __interlock d;
     sc := sc d; state := state d; status := status d;
     streams := streams d; wire := l |}.

(** The three cached status fields together. *)
Definition cached (d : ThorlabsSC10) : bool * bool * bool :=
  (__enabled d, __open d, __interlock d).

(** ** Methods as computations: state and exceptions *)

Inductive outcome (A : Type) :=
  | Return (a : A)
  | Raise (e : exn).
Arguments Return {A} a.
Arguments Raise {A} e.

(** A method body: from the instance before to how it ended and the
    instance after.  What was assigned before an exception stays assigned. *)
Definition M (A : Type) : Type := ThorlabsSC10 -> outcome A * ThorlabsSC10.

Definition ret {A} (a : A) : M A := fun d => (Return a, d).

Definition raise {A} (e : exn) : M A := fun d => (Raise e, d).

Definition bind {A B} (m : M A) (k : A -> M B) : M B :=
  fun d =>
    match m d with
    | (Return a, d') => k a d'
    | (Raise e, d') => (Raise e, d')
    end.

(** [try: body except: handler], with the bare [except] that catches
    everything. *)
Definition try_except {A} (body handler : M A) : M A :=
  fun d =>
    match body d with
    | (Return a, d') => (Return a, d')
    | (Raise _, d') => handler d'
    end.

Definition gets {A} (f : ThorlabsSC10 -> A) : M A := fun d => (Return (f d), d).

Definition modify (f : ThorlabsSC10 -> ThorlabsSC10) : M unit :=
  fun d => (Return tt, f d).

Declare Scope py_scope.
Delimit Scope py_scope with py.
Notation "x <- m ;; k" := (bind m (fun x => k))
  (at level 61, m at next level, right associativity) : py_scope.
Notation "m ;; k" := (bind m (fun _ => k))
  (at level 61, right associativity) : py_scope.
#[local] Open Scope py_scope.

(** How a method ended, and the instance it left. *)
Definition result {A} (m : M A) (d : ThorlabsSC10) : outcome A := fst (m d).
Definition after {A} (m : M A) (d : ThorlabsSC10) : ThorlabsSC10 := snd (m d).

(** The traffic a method adds to the line: [sent m d l] says that running
    [m] on [d] puts exactly the events [l] on the line, in this order. *)
Definition sent {A} (m : M A) (d : ThorlabsSC10) (l : list event) : Prop :=
  wire (after m d) = (wire d ++ l)%list.

(** *** Tango's part *)

Definition set_state (s : DevState) : M unit := modify (with_state s).
Definition set_status (s : string) : M unit := modify (with_status s).

Definition log (lvl : stream) (msg : string) : M unit :=
  modify (fun d => with_streams (streams d ++ [(lvl, msg)])%list d).
Definition info_stream := log Info.
Definition error_stream := log Error.
Definition debug_stream := log Debug.

(** [Device.init_device(self)]: the base class reads the device
    properties; they are fields of the instance already. *)
Definition Device_init_device : M unit := ret tt.

(** [int(s)], raising [ValueError] on a string that is no literal. *)
Definition int (s : string) : M Z :=
  match Py.int s with
  | Some n => ret n
  | None => raise ValueError
  end.

(** *** The methods *)

Section Device.

(** The serial line the device is attached to. *)
Variable line : Line.

(** [ik.thorlabs.SC10.open_serial(port, baud, timeout=...)]. *)
Definition open_serial (port : string) (baud : Z) (timeout : float)
  : M SC10 :=
  fun d =>
    let d' := with_wire (wire d ++ [Opened port baud timeout])%list d in
    match connect line (wire d) port baud timeout with
    | None => (Return {| prompt := None |}, d')
    | Some e => (Raise e, d')
    end.

(** Evaluating [self.sc]. *)
Definition self_sc : M SC10 :=
  fun d =>
    match sc d with
    | Some i => (Return i, d)
    | None => (Raise (AttributeError "sc"), d)
    end.

(** [del self.sc]. *)
Definition del_self_sc : M unit :=
  fun d =>
    match sc d with
    | Some _ => (Return tt, with_sc None d)
    | None => (Raise (AttributeError "sc"), d)
    end.

(** [self.sc.prompt = p]. *)
Definition set_prompt (p : string) : M unit :=
  i <- self_sc ;;
  modify (with_sc (Some {| prompt := Some p |})).

(** [self.sc.query(cmd)]. *)
Definition query (cmd : string) : M string :=
  i <- self_sc ;;
  fun d =>
    let d' := with_wire (wire d ++ [Query cmd])%list d in
    match answer line (wire d) i cmd with
    | inr reply => (Return reply, d')
    | inl e => (Raise e, d')
    end.

(** [self.sc.sendcmd(cmd)]. *)
Definition sendcmd (cmd : string) : M unit :=
  i <- self_sc ;;
  fun d =>
    let d' := with_wire (wire d ++ [SendCmd cmd])%list d in
    match accept line (wire d) i cmd with
    | None => (Return tt, d')
    | Some e => (Raise e, d')
    end.

Definition init_device : M unit :=
  Device_init_device ;;
  modify (with_enabled false) ;;
  modify (with_open false) ;;
  modify (with_interlock false) ;;
  port <- gets Port ;;
  baud <- gets Baudrate ;;
  timeout <- gets Timeout ;;
  info_stream ("Connecting to serial port " ++ port ++ " with baudrate "
               ++ Py.format_d baud ++ " ...") ;;
  try_except
    (i <- open_serial port baud timeout ;;
     modify (with_sc (Some i)) ;;
     set_prompt "> " ;;
     name <- query "id?" ;;
     info_stream ("Connection established: " ++ name) ;;
     set_state ON)
    (error_stream "Cannot connect!" ;;
     set_state OFF).

Definition delete_device : M unit :=
  set_state OFF ;;
  del_self_sc ;;
  info_stream "Device was deleted!".

(** Returns [DevState.OPEN] on the open branch and falls off the end,
    that is returns [None], on the other. *)
Definition always_executed_hook : M (option DevState) :=
  r <- query "ens?" ;;
  n <- int r ;;
  modify (with_enabled (Py.bool n)) ;;
  r <- query "closed?" ;;
  n <- int r ;;
  modify (with_open (negb (Py.bool n))) ;;
  r <- query "interlock?" ;;
  n <- int r ;;
  modify (with_interlock (Py.bool n)) ;;
  o <- gets __open ;;
  if o then
    set_status "Device is OPEN" ;;
    set_state OPEN ;;
    ret (Some OPEN)
  else
    set_status "Device is CLOSED" ;;
    set_state CLOSE ;;
    ret None.

Definition read_enabled : M bool := gets __enabled.

Definition read_open : M bool := gets __open.

Definition read_interlock : M bool := gets __interlock.

Definition read_baudrate : M BaudRate.t :=
  r <- query "baud?" ;;
  n <- int r ;;
  ret (if Py.bool n then BaudRate._115200 else BaudRate._9600).

Definition write_baudrate (value : Z) : M unit :=
  sendcmd ("baud=" ++ Py.format_d value).

Definition read_mode : M Z :=
  r <- query "mode?" ;;
  n <- int r ;;
  ret (n - 1).

Definition write_mode (value : Z) : M unit :=
  sendcmd ("mode=" ++ Py.format_d (value + 1)).

Definition read_trigger_mode : M Z :=
  r <- query "trig?" ;; int r.

Definition write_trigger_mode (value : Z) : M unit :=
  sendcmd ("trig=" ++ Py.format_d value).

Definition read_extrigger_mode : M Z :=
  r <- query "xto?" ;; int r.

Definition write_extrigger_mode (value : Z) : M unit :=
  sendcmd ("xto=" ++ Py.format_d value).

Definition read_repeat_count : M Z :=
  r <- query "rep?" ;; int r.

Definition write_repeat_count (value : Z) : M unit :=
  sendcmd ("rep=" ++ Py.format_d value).

Definition read_open_duration : M Z :=
  r <- query "open?" ;; int r.

Definition write_open_duration (value : Z) : M unit :=
  sendcmd ("open=" ++ Py.format_d value).

Definition read_close_duration : M Z :=
  r <- query "shut?" ;; int r.

Definition write_close_duration (value : Z) : M unit :=
  sendcmd ("shut=" ++ Py.format_d value).

Definition enable : M unit :=
  e <- gets __enabled ;;
  if e then
    debug_stream "shutter already enabled"
  else
    debug_stream "enable shutter" ;;
    sendcmd "ens".

Definition disable : M unit :=
  e <- gets __enabled ;;
  if e then
    debug_stream "disable shutter" ;;
    sendcmd "ens"
  else
    debug_stream "shutter already disabled".

Definition store_config : M unit :=
  debug_stream "store config" ;;
  sendcmd "savp".

Definition restore_config : M unit :=
  debug_stream "load config" ;;
  sendcmd "resp".

(** *** Vocabulary for the statements *)

(** After the events [past] have been added to the line of [d], the
    controller answers the query [cmd] with a reply that reads as the
    integer [n]. *)
Definition answers (d : ThorlabsSC10) (i : SC10) (past : list event)
  (cmd : string) (n : Z) : Prop :=
  exists reply,
    answer line (wire d ++ past)%list i cmd = inr reply /\
    Py.int reply = Some n.

(** The attempt to connect made by [init_device] on [d] fails: the port
    does not open, or it opens and the identification query raises. *)
Definition connect_fails (d : ThorlabsSC10) : Prop :=
  let w := Opened (Port d) (Baudrate d) (Timeout d) in
  match connect line (wire d) (Port d) (Baudrate d) (Timeout d) with
  | Some _ => True
  | None =>
      match answer line (wire d ++ [w])%list {| prompt := Some "> " |} "id?"
      with
      | inl _ => True
      | inr _ => False
      end
  end.

End Device.

(** A method leaves the three cached status fields as they were, however
    it ends. *)
Definition keeps_cached {A} (m : M A) : Prop :=
  forall d, cached (after m d) = cached d.

(** ** A bench: simulated controllers and a device instance *)

Module Bench.

(** The last value written to the setting [key] by a [key=value] command,
    or [default] when none was. *)
Definition last_set (key default : string) (past : list event) : string :=
  fold_left
    (fun acc e =>
       match e with
       | SendCmd c =>
           if String.prefix (key ++ "=") c
           then String.substring (String.length key + 1)
                  (String.length c - (String.length key + 1)) c
           else acc
       | _ => acc
       end)
    past default.

(** How often the enable toggle was sent. *)
Definition toggles (past : list event) : nat :=
  List.length
    (filter (fun e => match e with
                      | SendCmd c => String.eqb c "ens"
                      | _ => false
                      end) past).

(** A controller that works: it is on [/dev/ttyUSB0], remembers what is
    written to it, and flips its enable bit on each [ens]. *)
Definition controller : Line := {|
  connect := fun _ port _ _ =>
    if String.eqb port "/dev/ttyUSB0" then None
    else Some (InstrumentError "could not open port");
  answer := fun past _ cmd =>
    if String.eqb cmd "id?" then inr "THORLABS SC10 VERSION 1.07"
    else if String.eqb cmd "ens?"
      then inr (if Nat.odd (toggles past) then "1" else "0")
    else if String.eqb cmd "closed?" then inr "1"
    else if String.eqb cmd "interlock?" then inr "0"
    else if String.eqb cmd "baud?" then inr (last_set "baud" "0" past)
    else if String.eqb cmd "mode?" then inr (last_set "mode" "1" past)
    else if String.eqb cmd "trig?" then inr (last_set "trig" "0" past)
    else if String.eqb cmd "xto?" then inr (last_set "xto" "0" past)
    else if String.eqb cmd "rep?" then inr (last_set "rep" "1" past)
    else if String.eqb cmd "open?" then inr (last_set "open" "1000" past)
    else if String.eqb cmd "shut?" then inr (last_set "shut" "1000" past)
    else inl (InstrumentError "command error");
  accept := fun _ _ _ => None
|}.

(** No controller at all: the port cannot be opened. *)
Definition unplugged : Line := {|
  connect := fun _ _ _ _ => Some (InstrumentError "could not open port");
  answer := fun _ _ _ => inl (InstrumentError "port is closed");
  accept := fun _ _ _ => Some (InstrumentError "port is closed")
|}.

(** A port that opens with nothing answering behind it. *)
Definition silent : Line := {|
  connect := fun _ _ _ _ => None;
  answer := fun _ _ _ => inl (InstrumentError "timeout");
  accept := fun _ _ _ => Some (InstrumentError "timeout")
|}.

(** An instance with the default device properties, before
    [init_device]. *)
Definition fresh : ThorlabsSC10 := {|
  Port := "/dev/ttyUSB0";
  Baudrate := 9600;
  Timeout := 1%float;
  __enabled := false;
  __open := false;
  __interlock := false;
  sc := None;
  state := UNKNOWN;
  status := "The device is in UNKNOWN state.";
  streams := [];
  wire := []
|}.

(** The instance once it is connected to the working controller. *)
Definition running : ThorlabsSC10 := after (init_device controller) fresh.

(** The instrument that the running instance has bound. *)
Definition bound : SC10 := {| prompt := Some "> " |}.

End Bench.

(** ** Vocabulary for the behaviour off the main path *)

(** A string of nothing but characters that [int] skips at the ends of a
    [str]. *)
Fixpoint all_space (s : string) : bool :=
  match s with
  | EmptyString => true
  | String a s' => Py.is_space a && all_space s'
  end.

(** A method leaves the observation [f] of the instance as it was, however
    it ends. *)
Definition keeps {A B} (f : ThorlabsSC10 -> B) (m : M A) : Prop :=
  forall d, f (after m d) = f d.

(** What is standing about an instance: the device properties, the binding
    of the instrument, and the Tango state and status. *)
Definition standing (d : ThorlabsSC10)
  : string * Z * float * option SC10 * DevState * string :=
  (Port d, Baudrate d, Timeout d, sc d, state d, status d).

(** A method ended with an exception. *)
Definition raised {A} (o : outcome A) : Prop := exists e, o = Raise e.

Section Failures.

Variable line : Line.

(** The read [m], which asks [q], hands on what goes wrong: the exception
    of a query that fails, and [ValueError] for a reply that is no integer
    literal; in both cases the one query is on the line and the instance is
    otherwise untouched. *)
Definition read_propagates {A} (q : string) (m : M A)
  (d : ThorlabsSC10) (i : SC10) : Prop :=
  (forall e, answer line (wire d) i q = inl e ->
     m d = (Raise e, with_wire (wire d ++ [Query q]) d)) /\
  (forall reply, answer line (wire d) i q = inr reply ->
     Py.int reply = None ->
     m d = (Raise ValueError, with_wire (wire d ++ [Query q]) d)).

(** The method [m], which sends [c] as its last step from the instance
    [d'], ends as the instrument takes the command: normally, or with the
    instrument's exception; the one command is on the line either way. *)
Definition write_propagates (c : string) (m : M unit)
  (d d' : ThorlabsSC10) (i : SC10) : Prop :=
  m d =
  (match accept line (wire d) i c with
   | None => Return tt
   | Some e => Raise e
   end,
   with_wire (wire d ++ [SendCmd c]) d').

(** The controller gives no integer for [cmd] after [past]: the query
    fails, or the reply is no integer literal. *)
Definition no_answer (d : ThorlabsSC10) (i : SC10) (past : list event)
  (cmd : string) : Prop :=
  forall n, ~ answers line d i past cmd n.

End Failures.

(** ** More of the bench: controllers that fail part of the way *)

Module Faults.

(** A port that opens, behind it a controller that gives [reply] to the
    queries listed in [known] and lets every other request time out. *)
Definition answers_only (known : list string) (reply : string) : Line := {|
  connect := fun _ _ _ _ => None;
  answer := fun _ _ cmd =>
    if existsb (String.eqb cmd) known then inr reply
    else inl (InstrumentError "timeout");
  accept := fun _ _ _ => Some (InstrumentError "timeout")
|}.

(** The reply [7] with a blank before and a carriage return and a line
    feed after it. *)
Definition padded_seven : string :=
  String " " (String "7" (String "013" (String "010" EmptyString))).

(** An instance with the default properties and an instrument bound. *)
Definition attached : ThorlabsSC10 := with_sc (Some Bench.bound) Bench.fresh.

End Faults.

Example int_plain : Py.int "1" = Some 1.
Proof. reflexivity. Qed.

Example int_padded : Py.int " 42
" = Some 42.
Proof. reflexivity. Qed.

Example int_signed : Py.int "-7" = Some (-7) /\ Py.int "+7" = Some 7.
Proof. split; reflexivity. Qed.

Example int_underscore :
  Py.int "1_000" = Some 1000 /\ Py.int "1__0" = None /\
  Py.int "_1" = None /\ Py.int "1_" = None.
Proof. repeat split; reflexivity. Qed.

Example int_rejects : Py.int "" = None /\ Py.int "abc" = None /\
  Py.int "- 5" = None /\ Py.int "1 2" = None.
Proof. repeat split; reflexivity. Qed.

(** The separators 28 to 31 are not skipped; the no-break space and the
    next-line character are. *)
Example int_separators :
  Py.int (String "028" "5") = None /\ Py.int (String "5" (String "031" ""))
  = None /\
  Py.int (String "160" "7") = Some 7 /\ Py.int (String "133" "7") = Some 7 /\
  Py.int (String "1" (String "160" "2")) = None /\
  Py.int (String "178" "") = None.
Proof. repeat split; reflexivity. Qed.

(** Of the 256 characters, the ones skipped before a digit and after it,
    and the ones that are a literal by themselves. *)
Example int_character_table :
  filter (fun c => Py.is_space (ascii_of_nat c)) (seq 0 256)
  = [9; 10; 11; 12; 13; 32; 133; 160]%nat /\
  filter (fun c => match Py.int (String (ascii_of_nat c) "5") with
                   | Some 5 => true
                   | _ => false
                   end) (seq 0 256)
  = [9; 10; 11; 12; 13; 32; 43; 48; 133; 160]%nat /\
  filter (fun c => match Py.int (String "5" (String (ascii_of_nat c) "")) with
                   | Some 5 => true
                   | _ => false
                   end) (seq 0 256)
  = [9; 10; 11; 12; 13; 32; 133; 160]%nat /\
  filter (fun c => match Py.int (String (ascii_of_nat c) "") with
                   | Some _ => true
                   | None => false
                   end) (seq 0 256)
  = seq 48 10.
Proof. vm_compute. repeat split; reflexivity. Qed.

Example format_d_samples :
  Py.format_d 0 = "0" /\ Py.format_d 5 = "5" /\ Py.format_d (-12) = "-12" /\
  Py.format_d 115200 = "115200".
Proof. repeat split; reflexivity. Qed.

(** ** [int] reads back what [format_d] prints *)

Lemma lstrip_no_space s : Py.no_space s = true -> Py.lstrip s = s.
Proof.
  destruct s as [|a s]; simpl; [reflexivity|].
  intros H; apply andb_prop in H as [Ha _].
  apply negb_true_iff in Ha. now rewrite Ha.
Qed.

Lemma rstrip_no_space s : Py.no_space s = true -> Py.rstrip s = s.
Proof.
  induction s as [|a s IH]; simpl; [reflexivity|].
  intros H; apply andb_prop in H as [Ha Hs].
  apply negb_true_iff in Ha. rewrite (IH Hs), Ha.
  now destruct s.
Qed.

Lemma strip_no_space s : Py.no_space s = true -> Py.strip s = s.
Proof.
  intros H. unfold Py.strip. rewrite (lstrip_no_space _ H).
  now apply rstrip_no_space.
Qed.

Lemma no_space_numeral d : Py.no_space (NilEmpty.string_of_uint d) = true.
Proof. induction d; simpl; auto. Qed.

(** Evaluate [digit_val] on the character at hand. *)
Ltac read_digit :=
  match goal with
  | |- context [Py.digit_val ?c] =>
      let v := eval vm_compute in (Py.digit_val c) in
      change (Py.digit_val c) with v; cbv iota
  end.

(** Reading the numeral of [d] after a non-zero prefix [acc]. *)
Lemma digits_numeral_acc d : forall acc,
  Py.digits (Z.pos acc) true (NilEmpty.string_of_uint d)
  = Some (Z.pos (Pos.of_uint_acc d acc)).
Proof.
  induction d; intros acc;
    cbn [NilEmpty.string_of_uint Py.digits Pos.of_uint_acc];
    try reflexivity; read_digit; rewrite <- IHd; f_equal; lia.
Qed.

(** Reading the numeral of [d] from scratch; leading zeros are allowed. *)
Lemma digits_numeral d : forall b,
  (d = Nil -> b = true) ->
  Py.digits 0 b (NilEmpty.string_of_uint d) = Some (Z.of_N (Pos.of_uint d)).
Proof.
  induction d; intros b Hb;
    cbn [NilEmpty.string_of_uint Py.digits Pos.of_uint]; try read_digit.
  - now rewrite Hb.
  - apply (IHd true). reflexivity.
  - apply (digits_numeral_acc d 1).
  - apply (digits_numeral_acc d 2).
  - apply (digits_numeral_acc d 3).
  - apply (digits_numeral_acc d 4).
  - apply (digits_numeral_acc d 5).
  - apply (digits_numeral_acc d 6).
  - apply (digits_numeral_acc d 7).
  - apply (digits_numeral_acc d 8).
  - apply (digits_numeral_acc d 9).
Qed.

Lemma int_numeral p :
  Py.int (NilEmpty.string_of_uint (Pos.to_uint p)) = Some (Z.pos p).
Proof.
  unfold Py.int. rewrite strip_no_space by apply no_space_numeral.
  pose proof (DecimalPos.Unsigned.of_to p) as Hp.
  pose proof (DecimalPos.Unsigned.to_uint_nonnil p) as Hn.
  assert (Py.digits 0 false (NilEmpty.string_of_uint (Pos.to_uint p))
          = Some (Z.pos p)) as Hd.
  { rewrite digits_numeral by (intros E; now destruct Hn).
    now rewrite Hp. }
  destruct (Pos.to_uint p); try (now destruct Hn); exact Hd.
Qed.

Lemma int_neg_numeral p :
  Py.int (String "-" (NilEmpty.string_of_uint (Pos.to_uint p)))
  = Some (Z.neg p).
Proof.
  unfold Py.int.
  rewrite strip_no_space by (simpl; apply no_space_numeral).
  pose proof (DecimalPos.Unsigned.of_to p) as Hp.
  pose proof (DecimalPos.Unsigned.to_uint_nonnil p) as Hn.
  rewrite digits_numeral by (intros E; now destruct Hn).
  now rewrite Hp.
Qed.

Lemma int_format_d v : Py.int (Py.format_d v) = Some v.
Proof.
  unfold Py.format_d. destruct v as [|p|p]; [reflexivity| |];
    cbn [Z.to_int NilZero.string_of_int];
    pose proof (DecimalPos.Unsigned.to_uint_nonnil p) as Hn;
    unfold NilZero.string_of_uint.
  - rewrite <- (int_numeral p).
    destruct (Pos.to_uint p); try reflexivity; now destruct Hn.
  - rewrite <- (int_neg_numeral p).
    destruct (Pos.to_uint p); try reflexivity; now destruct Hn.
Qed.

(** ** How the primitive steps run *)

Section Steps.

Variable line : Line.

Lemma bind_return {A B} (m : M A) (k : A -> M B) d a d' :
  m d = (Return a, d') -> bind m k d = k a d'.
Proof. intros H. unfold bind. now rewrite H. Qed.

Lemma query_reply d i cmd reply :
  sc d = Some i ->
  answer line (wire d) i cmd = inr reply ->
  query line cmd d = (Return reply, with_wire (wire d ++ [Query cmd]) d).
Proof.
  intros Hsc Hans. unfold query, bind, self_sc. now rewrite Hsc, Hans.
Qed.

Lemma query_error d i cmd e :
  sc d = Some i ->
  answer line (wire d) i cmd = inl e ->
  query line cmd d = (Raise e, with_wire (wire d ++ [Query cmd]) d).
Proof.
  intros Hsc Hans. unfold query, bind, self_sc. now rewrite Hsc, Hans.
Qed.

Lemma query_unbound d cmd :
  sc d = None -> query line cmd d = (Raise (AttributeError "sc"), d).
Proof. intros Hsc. unfold query, bind, self_sc. now rewrite Hsc. Qed.

Lemma query_int d i cmd n :
  sc d = Some i ->
  answers line d i [] cmd n ->
  bind (query line cmd) int d
  = (Return n, with_wire (wire d ++ [Query cmd]) d).
Proof.
  intros Hsc (reply & Hans & Hint). rewrite app_nil_r in Hans.
  rewrite (bind_return _ _ _ _ _ (query_reply _ _ _ _ Hsc Hans)).
  unfold int. now rewrite Hint.
Qed.

Lemma sendcmd_after d i cmd :
  sc d = Some i ->
  after (sendcmd line cmd) d = with_wire (wire d ++ [SendCmd cmd]) d.
Proof.
  intros Hsc. unfold after, sendcmd, bind, self_sc. rewrite Hsc.
  now destruct (accept line (wire d) i cmd).
Qed.

Lemma sendcmd_unbound d cmd :
  sc d = None -> sendcmd line cmd d = (Raise (AttributeError "sc"), d).
Proof. intros Hsc. unfold sendcmd, bind, self_sc. now rewrite Hsc. Qed.

Lemma log_after lvl msg d :
  log lvl msg d = (Return tt, with_streams (streams d ++ [(lvl, msg)]) d).
Proof. reflexivity. Qed.

End Steps.

(** Two instances with the same fields are the same instance. *)
Lemma instance_eq (d1 d2 : ThorlabsSC10) :
  Port d1 = Port d2 -> Baudrate d1 = Baudrate d2 -> Timeout d1 = Timeout d2 ->
  cached d1 = cached d2 -> sc d1 = sc d2 ->
  state d1 = state d2 -> status d1 = status d2 ->
  streams d1 = streams d2 -> wire d1 = wire d2 ->
  d1 = d2.
Proof.
  destruct d1, d2; unfold cached; cbn.
  intros -> -> -> [= -> -> ->] -> -> -> -> ->. reflexivity.
Qed.

(** Reduce the selected field of a chain of updates, and nothing else. *)
Ltac project :=
  lazy beta iota delta
    [Port Baudrate Timeout __enabled __open __interlock sc state status
     streams wire cached with_enabled with_open with_interlock with_sc
     with_state with_status with_streams with_wire].

(** ** The attribute and command contract *)

Section Contract.

Variable line : Line.

(** C1. For a mode value [m] in [0,4], writing the mode puts exactly the
    command [mode=<m+1>] on the line; reading the mode returns the integer
    of the controller's reply minus one; so a read that follows the write,
    the controller echoing [m+1], returns [m]. *)
Theorem mode_round_trip (d : ThorlabsSC10) (i : SC10) (m : Z) :
  0 <= m <= 4 ->
  sc d = Some i ->
  sent (write_mode line m) d [SendCmd ("mode=" ++ Py.format_d (m + 1))] /\
  (forall d' i' n,
      sc d' = Some i' ->
      answers line d' i' [] "mode?" n ->
      result (read_mode line) d' = Return (n - 1)) /\
  (answer line (wire (after (write_mode line m) d)) i "mode?"
     = inr (Py.format_d (m + 1)) ->
   result (read_mode line) (after (write_mode line m) d) = Return m).
Proof.
  intros _ Hsc.
  assert (forall d' i' n, sc d' = Some i' ->
            answers line d' i' [] "mode?" n ->
            result (read_mode line) d' = Return (n - 1)) as Hread.
  { intros d' i' n Hsc' (reply & Hans & Hint). rewrite app_nil_r in Hans.
    unfold result, read_mode.
    rewrite (bind_return _ _ _ _ _ (query_reply _ _ _ _ _ Hsc' Hans)).
    unfold int. now rewrite Hint. }
  split; [|split].
  - unfold sent, write_mode. now rewrite (sendcmd_after _ _ _ _ Hsc).
  - exact Hread.
  - intros Hecho.
    rewrite (Hread _ i (m + 1)).
    + f_equal. lia.
    + unfold write_mode. now rewrite (sendcmd_after _ _ _ _ Hsc).
    + exists (Py.format_d (m + 1)). rewrite app_nil_r.
      split; [exact Hecho | apply int_format_d].
Qed.

(** C6. Repeat count, open duration and close duration are passed
    through: a read puts exactly one query on the line ([rep?], [open?],
    [shut?]), returns the integer of the reply and changes nothing else of
    the instance; a write puts exactly one command on the line
    ([rep=<value>], [open=<value>], [shut=<value>]), with no query after
    it, and changes nothing else of the instance. *)
Theorem numeric_settings_pass_through (d : ThorlabsSC10) (i : SC10) :
  sc d = Some i ->
  (forall n, answers line d i [] "rep?" n ->
     read_repeat_count line d
     = (Return n, with_wire (wire d ++ [Query "rep?"]) d)) /\
  (forall n, answers line d i [] "open?" n ->
     read_open_duration line d
     = (Return n, with_wire (wire d ++ [Query "open?"]) d)) /\
  (forall n, answers line d i [] "shut?" n ->
     read_close_duration line d
     = (Return n, with_wire (wire d ++ [Query "shut?"]) d)) /\
  (forall v, after (write_repeat_count line v) d
     = with_wire (wire d ++ [SendCmd ("rep=" ++ Py.format_d v)]) d) /\
  (forall v, after (write_open_duration line v) d
     = with_wire (wire d ++ [SendCmd ("open=" ++ Py.format_d v)]) d) /\
  (forall v, after (write_close_duration line v) d
     = with_wire (wire d ++ [SendCmd ("shut=" ++ Py.format_d v)]) d).
Proof.
  intros Hsc. repeat split; intros;
    solve [ now apply (query_int line d i)
          | now apply (sendcmd_after line d i) ].
Qed.

(** C7. [store_config] puts exactly [savp] on the line and
    [restore_config] exactly [resp], whatever the rest of the instance is;
    called one after the other they put [savp] then [resp] on the line and
    nothing else, in particular no query. *)
Theorem store_then_restore (d : ThorlabsSC10) (i : SC10) :
  sc d = Some i ->
  sent (store_config line) d [SendCmd "savp"] /\
  sent (restore_config line) d [SendCmd "resp"] /\
  wire (after (restore_config line) (after (store_config line) d))
  = (wire d ++ [SendCmd "savp"; SendCmd "resp"])%list.
Proof.
  intros Hsc.
  assert (forall d0 msg cmd, sc d0 = Some i ->
            after (debug_stream msg ;; sendcmd line cmd) d0
            = with_wire (wire d0 ++ [SendCmd cmd])
                (with_streams (streams d0 ++ [(Debug, msg)]) d0)) as Hrun.
  { intros d0 msg cmd H0. unfold after, debug_stream.
    rewrite (bind_return _ _ _ _ _ (log_after Debug msg d0)).
    exact (sendcmd_after line
             (with_streams (streams d0 ++ [(Debug, msg)]) d0) i cmd H0). }
  unfold sent, store_config, restore_config.
  rewrite !(Hrun d _ _ Hsc). repeat split.
  rewrite Hrun by exact Hsc. cbn [wire with_wire with_streams].
  now rewrite <- app_assoc.
Qed.

(** However a refresh ends, what it has put on the line is an initial part
    of the three queries, in their order: it stops at the first query
    that fails or whose reply is not an integer. *)
Lemma refresh_queries_in_order (d : ThorlabsSC10) :
  exists k,
    sent (always_executed_hook line) d
      (firstn k [Query "ens?"; Query "closed?"; Query "interlock?"]).
Proof.
  unfold sent, after, always_executed_hook.
  cbv [bind int ret raise modify gets set_state set_status].
  destruct (sc d) as [i|] eqn:Hsc;
    [ | exists 0%nat; rewrite (query_unbound line d _ Hsc);
        cbn [snd firstn]; now rewrite app_nil_r ].
  destruct (answer line (wire d) i "ens?") as [e|r1] eqn:H1;
    [ exists 1%nat; erewrite query_error; [ | exact Hsc | exact H1 ];
      reflexivity | ].
  erewrite query_reply; [ | exact Hsc | exact H1 ].
  destruct (Py.int r1) as [n1|]; [ | exists 1%nat; reflexivity ].
  destruct (answer line (wire d ++ [Query "ens?"]) i "closed?")
    as [e|r2] eqn:H2;
    [ exists 2%nat; erewrite query_error; [ | exact Hsc | exact H2 ];
      project; now rewrite <- !app_assoc | ].
  erewrite query_reply; [ | exact Hsc | exact H2 ].
  destruct (Py.int r2) as [n2|];
    [ | exists 2%nat; project; now rewrite <- !app_assoc ].
  destruct (answer line ((wire d ++ [Query "ens?"]) ++ [Query "closed?"]) i
              "interlock?") as [e|r3] eqn:H3;
    [ exists 3%nat; erewrite query_error; [ | exact Hsc | exact H3 ];
      project; now rewrite <- !app_assoc | ].
  erewrite query_reply; [ | exact Hsc | exact H3 ].
  exists 3%nat.
  destruct (Py.int r3) as [n3|]; [ | project; now rewrite <- !app_assoc ].
  cbn [__open with_interlock with_wire with_open with_enabled].
  destruct (negb (Py.bool n2)); project; now rewrite <- !app_assoc.
Qed.
(** The run of the polling refresh when the controller answers its three
    queries with integers. *)
Lemma refresh_run (d : ThorlabsSC10) (i : SC10) (n1 n2 n3 : Z) :
  sc d = Some i ->
  answers line d i [] "ens?" n1 ->
  answers line d i [Query "ens?"] "closed?" n2 ->
  answers line d i [Query "ens?"; Query "closed?"] "interlock?" n3 ->
  always_executed_hook line d
  = (Return (if Py.bool n2 then None else Some OPEN),
     with_state (if Py.bool n2 then CLOSE else OPEN)
       (with_status
          (if Py.bool n2 then "Device is CLOSED" else "Device is OPEN")
          (with_wire
             (wire d ++ [Query "ens?"; Query "closed?"; Query "interlock?"])
             (with_interlock (Py.bool n3)
                (with_open (negb (Py.bool n2))
                   (with_enabled (Py.bool n1) d)))))).
Proof.
  intros Hsc (r1 & H1 & I1) (r2 & H2 & I2) (r3 & H3 & I3).
  rewrite app_nil_r in H1.
  change [Query "ens?"; Query "closed?"]
    with ([Query "ens?"] ++ [Query "closed?"])%list in H3.
  rewrite app_assoc in H3.
  unfold always_executed_hook.
  cbv [bind int ret raise modify gets set_state set_status].
  erewrite query_reply; [ | exact Hsc | exact H1 ]. rewrite I1.
  erewrite query_reply; [ | exact Hsc | exact H2 ]. rewrite I2.
  erewrite query_reply; [ | exact Hsc | exact H3 ]. rewrite I3.
  cbn [__open with_interlock with_wire with_open with_enabled].
  destruct (Py.bool n2); cbn [negb]; f_equal;
    apply instance_eq; try reflexivity;
    project; now rewrite <- !app_assoc.
Qed.

(** C2. Every run of the polling refresh in which the controller answers
    puts exactly the three queries [ens?], [closed?], [interlock?] on the
    line, in this order, whatever the cached fields were before, and
    stores the truth values of the three replies in the cached fields
    (the second one negated, as the open flag). *)
Theorem refresh_three_queries (d : ThorlabsSC10) (i : SC10) (n1 n2 n3 : Z) :
  sc d = Some i ->
  answers line d i [] "ens?" n1 ->
  answers line d i [Query "ens?"] "closed?" n2 ->
  answers line d i [Query "ens?"; Query "closed?"] "interlock?" n3 ->
  sent (always_executed_hook line) d
    [Query "ens?"; Query "closed?"; Query "interlock?"] /\
  cached (after (always_executed_hook line) d)
  = (Py.bool n1, negb (Py.bool n2), Py.bool n3).
Proof.
  intros Hsc H1 H2 H3. unfold sent, after.
  rewrite (refresh_run d i n1 n2 n3 Hsc H1 H2 H3). split; reflexivity.
Qed.

(** C3. After a refresh the cached open flag is the negation of the truth
    value the controller reported for [closed?]; state and status are
    OPEN exactly when the open flag is true, and CLOSE otherwise. *)
Theorem refresh_open_is_not_closed
  (d : ThorlabsSC10) (i : SC10) (n1 n2 n3 : Z) :
  sc d = Some i ->
  answers line d i [] "ens?" n1 ->
  answers line d i [Query "ens?"] "closed?" n2 ->
  answers line d i [Query "ens?"; Query "closed?"] "interlock?" n3 ->
  let d' := after (always_executed_hook line) d in
  __open d' = negb (Py.bool n2) /\
  (__open d' = true ->
     state d' = OPEN /\ status d' = "Device is OPEN" /\
     result (always_executed_hook line) d = Return (Some OPEN)) /\
  (__open d' = false ->
     state d' = CLOSE /\ status d' = "Device is CLOSED" /\
     result (always_executed_hook line) d = Return None).
Proof.
  intros Hsc H1 H2 H3. unfold result, after.
  rewrite (refresh_run d i n1 n2 n3 Hsc H1 H2 H3).
  cbn [fst snd __open state status with_state with_status with_wire
       with_interlock with_open].
  destruct (Py.bool n2); cbn [negb]; repeat split; congruence.
Qed.

(** C4. [enable] puts exactly one [ens] on the line when the cached
    enabled flag is false, and nothing when it is true (it only writes to
    the debug stream); [disable] puts exactly one [ens] on the line when
    the flag is true, and nothing when it is false. *)
Theorem enable_disable_toggle (d : ThorlabsSC10) (i : SC10) :
  sc d = Some i ->
  (__enabled d = false -> sent (enable line) d [SendCmd "ens"]) /\
  (__enabled d = true ->
     enable line d
     = (Return tt,
        with_streams (streams d ++ [(Debug, "shutter already enabled")]) d))
  /\
  (__enabled d = true -> sent (disable line) d [SendCmd "ens"]) /\
  (__enabled d = false ->
     disable line d
     = (Return tt,
        with_streams (streams d ++ [(Debug, "shutter already disabled")]) d)).
Proof.
  intros Hsc.
  assert (forall msg, sent (debug_stream msg ;; sendcmd line "ens") d
                        [SendCmd "ens"]) as Htoggle.
  { intros msg. unfold sent, after, debug_stream.
    rewrite (bind_return _ _ _ _ _ (log_after Debug msg d)).
    pose proof (sendcmd_after line
                  (with_streams (streams d ++ [(Debug, msg)]) d) i "ens" Hsc)
      as E.
    unfold after in E. now rewrite E. }
  repeat split; intros He.
  - unfold sent, after, enable, bind at 1, gets. rewrite He. apply Htoggle.
  - unfold enable, bind, gets. now rewrite He.
  - unfold sent, after, disable, bind at 1, gets. rewrite He. apply Htoggle.
  - unfold disable, bind, gets. now rewrite He.
Qed.

(** C8. No read checks the code it receives: for every integer [n] the
    controller replies, reading the mode returns [n - 1], inside [0,4] or
    not, and reading the baud rate returns the 9600 member for [n = 0] and
    the 115200 member for every other [n]; neither raises. *)
Theorem read_enum_unvalidated (d : ThorlabsSC10) (i : SC10) (n : Z) :
  sc d = Some i ->
  (answers line d i [] "mode?" n ->
     result (read_mode line) d = Return (n - 1)) /\
  (answers line d i [] "baud?" n ->
     result (read_baudrate line) d
     = Return (if n =? 0 then BaudRate._9600 else BaudRate._115200)).
Proof.
  intros Hsc. split; intros (reply & Hans & Hint);
    rewrite app_nil_r in Hans.
  - unfold result, read_mode.
    rewrite (bind_return _ _ _ _ _ (query_reply _ _ _ _ _ Hsc Hans)).
    unfold int. now rewrite Hint.
  - unfold result, read_baudrate.
    rewrite (bind_return _ _ _ _ _ (query_reply _ _ _ _ _ Hsc Hans)).
    unfold int. rewrite Hint. cbv [bind ret fst Py.bool].
    now destruct (n =? 0).
Qed.

(** Unfold a method down to the fields of the instance. *)
Ltac run :=
  lazy beta iota zeta delta
    [init_device delete_device Device_init_device open_serial set_prompt
     self_sc del_self_sc query sendcmd info_stream error_stream debug_stream
     log set_state set_status bind try_except ret raise gets modify
     result after sent connect_fails fst snd
     Port Baudrate Timeout __enabled __open __interlock sc state status
     streams wire cached with_enabled with_open with_interlock with_sc
     with_state with_status with_streams with_wire].

(** C5. [init_device] always returns normally and opens the port exactly
    once, followed by at most the one identification query.  If the
    attempt to connect fails, by the port not opening or by the
    identification query raising, the state is OFF and the failure is
    written to the error stream; otherwise the state is ON. *)
Theorem init_device_connects_once (d : ThorlabsSC10) :
  let d' := after (init_device line) d in
  let w := Opened (Port d) (Baudrate d) (Timeout d) in
  result (init_device line) d = Return tt /\
  (wire d' = wire d ++ [w] \/ wire d' = wire d ++ [w; Query "id?"])%list /\
  (connect_fails line d ->
   state d' = OFF /\
   streams d'
   = (streams d ++
      [(Info, ("Connecting to serial port " ++ Port d ++ " with baudrate "
               ++ Py.format_d (Baudrate d) ++ " ...")%string);
       (Error, "Cannot connect!")])%list) /\
  (~ connect_fails line d -> state d' = ON).
Proof.
  run.
  destruct (connect line _ _ _ _) as [e|]; run.
  - repeat split; auto; first [tauto | now rewrite <- app_assoc].
  - destruct (answer line _ _ _) as [e|name]; run;
      repeat split; auto;
      first [tauto | now rewrite <- app_assoc
            | right; now rewrite <- app_assoc].
Qed.

(** C9, as the code has it. [delete_device] always leaves the state OFF
    and the instrument unbound, and puts nothing on the line.  With an
    instrument bound it releases it and returns normally.  With none
    bound, as on a second call or when the port never opened, it raises
    [AttributeError] once the state is OFF.  Either way a further call
    leaves the instance exactly as the first one left it. *)
Theorem delete_device_releases (d : ThorlabsSC10) :
  let d' := after delete_device d in
  state d' = OFF /\ sc d' = None /\ wire d' = wire d /\
  (forall i, sc d = Some i ->
     delete_device d
     = (Return tt,
        with_streams (streams d ++ [(Info, "Device was deleted!")])
          (with_sc None (with_state OFF d)))) /\
  (sc d = None ->
     delete_device d = (Raise (AttributeError "sc"), with_state OFF d)) /\
  after delete_device d' = d'.
Proof.
  destruct d as [p b t e o k [i|] s u l w]; run; repeat split;
    intros; congruence.
Qed.

(** *** The cached status fields are a frame of everything else *)

Lemma keeps_ret {A} (a : A) : keeps_cached (ret a).
Proof. intros d. reflexivity. Qed.

Lemma keeps_raise {A} (e : exn) : keeps_cached (@raise A e).
Proof. intros d. reflexivity. Qed.

Lemma keeps_gets {A} (f : ThorlabsSC10 -> A) : keeps_cached (gets f).
Proof. intros d. reflexivity. Qed.

Lemma keeps_bind {A B} (m : M A) (k : A -> M B) :
  keeps_cached m -> (forall a, keeps_cached (k a)) ->
  keeps_cached (bind m k).
Proof.
  intros Hm Hk d. specialize (Hm d). unfold after, bind in *.
  destruct (m d) as [[a|e] d1]; cbn [snd] in *.
  - rewrite <- Hm. apply Hk.
  - exact Hm.
Qed.

Lemma keeps_modify (f : ThorlabsSC10 -> ThorlabsSC10) :
  (forall d, cached (f d) = cached d) -> keeps_cached (modify f).
Proof. intros Hf d. apply Hf. Qed.

Lemma keeps_log lvl msg : keeps_cached (log lvl msg).
Proof. apply keeps_modify. reflexivity. Qed.

Lemma keeps_set_state s : keeps_cached (set_state s).
Proof. apply keeps_modify. reflexivity. Qed.

Lemma keeps_self_sc : keeps_cached self_sc.
Proof. intros d. unfold after, self_sc. now destruct (sc d). Qed.

Lemma keeps_del_self_sc : keeps_cached del_self_sc.
Proof. intros d. unfold after, del_self_sc. now destruct (sc d). Qed.

Lemma keeps_int s : keeps_cached (int s).
Proof. unfold int. destruct (Py.int s); [apply keeps_ret | apply keeps_raise]. Qed.

Lemma keeps_query cmd : keeps_cached (query line cmd).
Proof.
  apply keeps_bind; [apply keeps_self_sc|].
  intros i d. unfold after. now destruct (answer line (wire d) i cmd).
Qed.

Lemma keeps_sendcmd cmd : keeps_cached (sendcmd line cmd).
Proof.
  apply keeps_bind; [apply keeps_self_sc|].
  intros i d. unfold after. now destruct (accept line (wire d) i cmd).
Qed.

Lemma keeps_if {A} (b : bool) (m1 m2 : M A) :
  keeps_cached m1 -> keeps_cached m2 ->
  keeps_cached (if b then m1 else m2).
Proof. now destruct b. Qed.

Create HintDb frame discriminated.

#[local] Hint Resolve keeps_ret keeps_raise keeps_gets keeps_log
  keeps_set_state keeps_self_sc keeps_del_self_sc keeps_int keeps_query
  keeps_sendcmd : frame.

(** Split a conjunction into its parts, and nothing further. *)
Ltac conjs := repeat match goal with |- _ /\ _ => split end.

(** Walk down a method body, one statement at a time. *)
Ltac frame :=
  repeat first
    [ solve [ auto with frame ]
    | progress unfold info_stream, error_stream, debug_stream
    | apply keeps_if
    | apply keeps_bind; [ | intros ? ] ].

(** C10. No attribute write and no command changes the cached fields
    enabled, open and interlock: after each of them, however it ends, the
    three fields are what they were before.  Neither do the attribute
    reads or [delete_device]; [init_device] assigns all three (to
    [False]), and the refresh is the only other method that assigns
    them. *)
Theorem cached_fields_frame :
  ((forall v, keeps_cached (write_baudrate line v)) /\
   (forall v, keeps_cached (write_mode line v)) /\
   (forall v, keeps_cached (write_trigger_mode line v)) /\
   (forall v, keeps_cached (write_extrigger_mode line v)) /\
   (forall v, keeps_cached (write_repeat_count line v)) /\
   (forall v, keeps_cached (write_open_duration line v)) /\
   (forall v, keeps_cached (write_close_duration line v))) /\
  (keeps_cached (enable line) /\ keeps_cached (disable line) /\
   keeps_cached (store_config line) /\ keeps_cached (restore_config line)) /\
  (keeps_cached read_enabled /\ keeps_cached read_open /\
   keeps_cached read_interlock /\ keeps_cached (read_baudrate line) /\
   keeps_cached (read_mode line) /\ keeps_cached (read_trigger_mode line) /\
   keeps_cached (read_extrigger_mode line) /\
   keeps_cached (read_repeat_count line) /\
   keeps_cached (read_open_duration line) /\
   keeps_cached (read_close_duration line) /\
   keeps_cached delete_device) /\
  (forall d, cached (after (init_device line) d) = (false, false, false)).
Proof.
  split; [|split; [|split]].
  - conjs; intros v;
      [ unfold write_baudrate | unfold write_mode
      | unfold write_trigger_mode | unfold write_extrigger_mode
      | unfold write_repeat_count | unfold write_open_duration
      | unfold write_close_duration ]; frame.
  - conjs;
      [ unfold enable | unfold disable
      | unfold store_config | unfold restore_config ]; frame.
  - conjs;
      [ unfold read_enabled | unfold read_open | unfold read_interlock
      | unfold read_baudrate | unfold read_mode | unfold read_trigger_mode
      | unfold read_extrigger_mode | unfold read_repeat_count
      | unfold read_open_duration | unfold read_close_duration
      | unfold delete_device ]; frame.
  - intros d. run.
    destruct (connect line _ _ _ _) as [e|]; run; [reflexivity|].
    destruct (answer line _ _ _) as [e|name]; reflexivity.
Qed.

End Contract.

(** ** Scenarios on the bench *)

Module Scenarios.

Import Bench.

(** The five modes go over the line as [1] to [5]. *)
Example write_mode_commands :
  map (fun m => wire (after (write_mode controller (Mode.value m))
                        (with_sc (Some bound) fresh)))
    [Mode.manual; Mode.auto; Mode.single; Mode.repeat; Mode.external]
  = [[SendCmd "mode=1"]; [SendCmd "mode=2"]; [SendCmd "mode=3"];
     [SendCmd "mode=4"]; [SendCmd "mode=5"]].
Proof. reflexivity. Qed.

(** C1 at mode 3 on the working controller. *)
Lemma mode_round_trip_witness :
  0 <= 3 <= 4 /\ sc running = Some bound /\
  wire (after (write_mode controller 3) running)
  = (wire running ++ [SendCmd "mode=4"])%list /\
  result (read_mode controller) (after (write_mode controller 3) running)
  = Return 3.
Proof.
  split; [lia|]. split; [reflexivity|].
  destruct (mode_round_trip controller running bound 3) as (Hw & _ & Hr);
    [lia | reflexivity |].
  split; [exact Hw | apply Hr; reflexivity].
Defined.

Ltac answered := eexists; split; reflexivity.

(** C2 on the working controller: disabled, closed, interlock fine. *)
Lemma refresh_three_queries_witness :
  sc running = Some bound /\
  wire (after (always_executed_hook controller) running)
  = (wire running ++ [Query "ens?"; Query "closed?"; Query "interlock?"])%list
  /\
  cached (after (always_executed_hook controller) running)
  = (false, false, false).
Proof.
  split; [reflexivity|].
  apply (refresh_three_queries controller running bound 0 1 0);
    [reflexivity | answered | answered | answered].
Defined.

(** C3 on the working controller, which reports the shutter closed. *)
Lemma refresh_open_is_not_closed_witness :
  sc running = Some bound /\
  __open (after (always_executed_hook controller) running) = false /\
  state (after (always_executed_hook controller) running) = CLOSE.
Proof.
  split; [reflexivity|].
  destruct (refresh_open_is_not_closed controller running bound 0 1 0)
    as (Ho & _ & Hc); [reflexivity | answered | answered | answered |].
  split; [exact Ho | apply Hc; exact Ho].
Defined.

(** C4 on the running instance, whose cached enabled flag is false. *)
Lemma enable_disable_toggle_witness :
  sc running = Some bound /\
  wire (after (enable controller) running)
  = (wire running ++ [SendCmd "ens"])%list /\
  wire (after (disable controller) running) = wire running.
Proof.
  split; [reflexivity|].
  destruct (enable_disable_toggle controller running bound eq_refl)
    as (He & _ & _ & Hd).
  split; [apply He; reflexivity|].
  exact (f_equal (fun r => wire (snd r)) (Hd eq_refl)).
Defined.

(** C5 with no controller attached. *)
Lemma init_device_connects_once_witness :
  connect_fails unplugged fresh /\
  result (init_device unplugged) fresh = Return tt /\
  state (after (init_device unplugged) fresh) = OFF /\
  In (Error, "Cannot connect!") (streams (after (init_device unplugged) fresh)).
Proof.
  assert (connect_fails unplugged fresh) as Hf by exact I.
  destruct (init_device_connects_once unplugged fresh)
    as (Hr & _ & Hoff & _).
  destruct (Hoff Hf) as (Hs & Hl).
  repeat split; try assumption.
  rewrite Hl. cbn. auto.
Defined.

(** C6 on the working controller. *)
Lemma numeric_settings_pass_through_witness :
  sc running = Some bound /\
  read_repeat_count controller running
  = (Return 1, with_wire (wire running ++ [Query "rep?"]) running) /\
  after (write_open_duration controller 250) running
  = with_wire (wire running ++ [SendCmd "open=250"]) running.
Proof.
  split; [reflexivity|].
  destruct (numeric_settings_pass_through controller running bound eq_refl)
    as (Hrep & _ & _ & _ & Hopen & _).
  split; [apply Hrep; answered | apply Hopen].
Defined.

(** C7 on the working controller. *)
Lemma store_then_restore_witness :
  sc running = Some bound /\
  wire (after (restore_config controller)
          (after (store_config controller) running))
  = (wire running ++ [SendCmd "savp"; SendCmd "resp"])%list.
Proof.
  split; [reflexivity|].
  apply (store_then_restore controller running bound eq_refl).
Defined.

(** C8 on the working controller after a write of mode 9 and baud
    code 7, neither of which is a declared code. *)
Lemma read_enum_unvalidated_witness :
  let d := after (write_mode controller 9) running in
  let d' := after (write_baudrate controller 7) running in
  sc d = Some bound /\ sc d' = Some bound /\
  result (read_mode controller) d = Return 9 /\
  result (read_baudrate controller) d' = Return BaudRate._115200.
Proof.
  cbv zeta. split; [reflexivity|]. split; [reflexivity|]. split.
  - apply (read_enum_unvalidated controller
             (after (write_mode controller 9) running) bound 10 eq_refl).
    answered.
  - apply (read_enum_unvalidated controller
             (after (write_baudrate controller 7) running) bound 7 eq_refl).
    answered.
Defined.

(** C9 fails as stated: a second [delete_device], and a [delete_device]
    after the port never opened, raise instead of succeeding. *)
Lemma delete_device_not_idempotent :
  result delete_device running = Return tt /\
  result delete_device (after delete_device running)
  = Raise (AttributeError "sc") /\
  result delete_device (after (init_device unplugged) fresh)
  = Raise (AttributeError "sc").
Proof. vm_compute. repeat split; reflexivity. Qed.

(** The instance is the same after the failed second call. *)
Example delete_device_twice_same_instance :
  after delete_device (after delete_device running)
  = after delete_device running /\
  state (after delete_device running) = OFF.
Proof. vm_compute. split; reflexivity. Qed.

(** A port that opens, with nothing behind it: OFF, the instrument stays
    bound, and [delete_device] then returns normally. *)
Example init_device_silent :
  state (after (init_device silent) fresh) = OFF /\
  sc (after (init_device silent) fresh) = Some bound /\
  wire (after (init_device silent) fresh)
  = [Opened "/dev/ttyUSB0" 9600 1%float; Query "id?"] /\
  result delete_device (after (init_device silent) fresh) = Return tt.
Proof. vm_compute. repeat split; reflexivity. Qed.

(** Two [enable] in a row with no refresh in between toggle twice: the
    cached flag is still false at the second call. *)
Example enable_twice_without_refresh :
  wire (after (enable controller) (after (enable controller) running))
  = (wire running ++ [SendCmd "ens"; SendCmd "ens"])%list /\
  cached (after (always_executed_hook controller)
            (after (enable controller) (after (enable controller) running)))
  = (false, false, false).
Proof. vm_compute. split; reflexivity. Qed.

(** One [enable], then a refresh: the flag is set and a second [enable]
    sends nothing. *)
Example enable_refresh_enable :
  let d := after (always_executed_hook controller)
             (after (enable controller) running) in
  __enabled d = true /\
  wire (after (enable controller) d) = wire d.
Proof. vm_compute. split; reflexivity. Qed.

(** A refresh stops at the first query that fails. *)
Example refresh_on_silent_line :
  always_executed_hook silent (with_sc (Some bound) fresh)
  = (Raise (InstrumentError "timeout"),
     with_wire [Query "ens?"] (with_sc (Some bound) fresh)).
Proof. vm_compute. reflexivity. Qed.

End Scenarios.

(** ** Beyond the contract: round trips, failures and frames *)

(** *** White space around a reply *)

Lemma lstrip_all_space l s : all_space l = true -> Py.lstrip (l ++ s) = Py.lstrip s.
Proof.
  induction l as [|a l IH]; cbn [all_space append Py.lstrip]; [reflexivity|].
  intros H. apply andb_prop in H as [Ha Hl]. rewrite Ha. now apply IH.
Qed.

Lemma rstrip_all_space t : all_space t = true -> Py.rstrip t = EmptyString.
Proof.
  induction t as [|a t IH]; cbn [all_space Py.rstrip]; [reflexivity|].
  intros H. apply andb_prop in H as [Ha Ht]. now rewrite (IH Ht), Ha.
Qed.

Lemma rstrip_app_all_space s t :
  all_space t = true -> Py.rstrip (s ++ t) = Py.rstrip s.
Proof.
  intros Ht. induction s as [|a s IH]; cbn [append Py.rstrip].
  - now apply rstrip_all_space.
  - now rewrite IH.
Qed.

Lemma lstrip_app s t :
  all_space t = true ->
  Py.rstrip (Py.lstrip (s ++ t)) = Py.rstrip (Py.lstrip s).
Proof.
  intros Ht. induction s as [|a s IH]; cbn [append Py.lstrip].
  - rewrite rstrip_all_space; [reflexivity|].
    clear - Ht. induction t as [|b t IH]; cbn [all_space Py.lstrip] in *;
      [reflexivity|].
    apply andb_prop in Ht as [Hb Ht]. rewrite Hb. now apply IH.
  - destruct (Py.is_space a); [exact IH|].
    exact (rstrip_app_all_space (String a s) t Ht).
Qed.

Lemma strip_padding l s t :
  all_space l = true -> all_space t = true ->
  Py.strip (l ++ s ++ t) = Py.strip s.
Proof.
  intros Hl Ht. unfold Py.strip.
  rewrite (lstrip_all_space l _ Hl). now apply lstrip_app.
Qed.

Lemma int_padding l s t :
  all_space l = true -> all_space t = true ->
  Py.int (l ++ s ++ t) = Py.int s.
Proof.
  intros Hl Ht. unfold Py.int. now rewrite (strip_padding l s t Hl Ht).
Qed.

Lemma bind_raise_at {A B} (m : M A) (k : A -> M B) d e d' :
  m d = (Raise e, d') -> bind m k d = (Raise e, d').
Proof. intros H. unfold bind. now rewrite H. Qed.

Section Beyond.

Variable line : Line.

(** Unfold any method down to the fields of the instance. *)
Ltac exec :=
  lazy beta iota zeta delta
    [init_device delete_device always_executed_hook
     read_enabled read_open read_interlock
     read_baudrate write_baudrate read_mode write_mode
     read_trigger_mode write_trigger_mode
     read_extrigger_mode write_extrigger_mode
     read_repeat_count write_repeat_count
     read_open_duration write_open_duration
     read_close_duration write_close_duration
     enable disable store_config restore_config
     Device_init_device open_serial set_prompt
     self_sc del_self_sc query sendcmd info_stream error_stream debug_stream
     log set_state set_status bind try_except ret raise gets modify int
     result after sent raised standing fst snd
     read_propagates write_propagates
     Port Baudrate Timeout __enabled __open __interlock sc state status
     streams wire cached with_enabled with_open with_interlock with_sc
     with_state with_status with_streams with_wire].

(** A read that follows a write of the text [format_d v], the controller
    giving the text back, returns [v]. *)
Lemma write_read_echo d i c q v :
  sc d = Some i ->
  answer line (wire (after (sendcmd line c) d)) i q = inr (Py.format_d v) ->
  result (bind (query line q) int) (after (sendcmd line c) d) = Return v.
Proof.
  intros Hsc Hans. unfold result.
  assert (sc (after (sendcmd line c) d) = Some i) as Hsc'
    by now rewrite (sendcmd_after line d i c Hsc).
  rewrite (bind_return _ _ _ _ _ (query_reply _ _ _ _ _ Hsc' Hans)).
  unfold int. now rewrite int_format_d.
Qed.

(** X1. Writing a baud-rate code [v] puts exactly [baud=<v>] on the line.
    A read that follows, the controller giving [v] back, returns the 9600
    member for [v = 0] and the 115200 member for every other [v].  So it
    returns the member that was written when [v] is the value of a member,
    and a member of another value for every other [v]: the round trip
    holds on the two declared codes and nowhere else. *)
Theorem baudrate_round_trip (d : ThorlabsSC10) (i : SC10) (v : Z) :
  sc d = Some i ->
  answer line (wire (after (write_baudrate line v) d)) i "baud?"
  = inr (Py.format_d v) ->
  sent (write_baudrate line v) d [SendCmd ("baud=" ++ Py.format_d v)] /\
  (v = 0 ->
   result (read_baudrate line) (after (write_baudrate line v) d)
   = Return BaudRate._9600) /\
  (v <> 0 ->
   result (read_baudrate line) (after (write_baudrate line v) d)
   = Return BaudRate._115200) /\
  (forall b, v = BaudRate.value b ->
     result (read_baudrate line) (after (write_baudrate line v) d)
     = Return b) /\
  (forall b,
     result (read_baudrate line) (after (write_baudrate line v) d)
     = Return b ->
     (BaudRate.value b = v <-> v = 0 \/ v = 1)).
Proof.
  intros Hsc Hans.
  assert (sc (after (write_baudrate line v) d) = Some i) as Hsc'
    by (unfold write_baudrate; now rewrite (sendcmd_after line d i _ Hsc)).
  assert (result (read_baudrate line) (after (write_baudrate line v) d)
          = Return (if v =? 0 then BaudRate._9600 else BaudRate._115200))
    as Hread.
  { unfold result, read_baudrate.
    rewrite (bind_return _ _ _ _ _ (query_reply _ _ _ _ _ Hsc' Hans)).
    unfold int. rewrite int_format_d. cbv [bind ret fst Py.bool].
    now destruct (v =? 0). }
  split; [|split; [|split; [|split]]].
  - unfold sent, write_baudrate. now rewrite (sendcmd_after line d i _ Hsc).
  - intros ->. exact Hread.
  - intros Hv. rewrite Hread.
    destruct (Z.eqb_spec v 0) as [E|_]; [contradiction|reflexivity].
  - intros b ->. rewrite Hread. now destruct b.
  - intros b Hb. rewrite Hread in Hb. injection Hb as <-.
    destruct (Z.eqb_spec v 0) as [->|Hv]; cbn [BaudRate.value]; lia.
Qed.

(** X2. Trigger mode, ex-trigger mode, repeat count, open duration and
    close duration go over the line as they are, in both directions.  For
    every integer [v], in the declared range or not, the write puts
    exactly [trig=<v>] (and [xto=<v>], [rep=<v>], [open=<v>], [shut=<v>])
    on the line, with the decimal numeral of [v] itself; and a read that
    follows, the controller giving that numeral back, returns [v]. *)
Theorem literal_round_trip (d : ThorlabsSC10) (i : SC10) (v : Z) :
  sc d = Some i ->
  (sent (write_trigger_mode line v) d [SendCmd ("trig=" ++ Py.format_d v)] /\
   sent (write_extrigger_mode line v) d [SendCmd ("xto=" ++ Py.format_d v)] /\
   sent (write_repeat_count line v) d [SendCmd ("rep=" ++ Py.format_d v)] /\
   sent (write_open_duration line v) d [SendCmd ("open=" ++ Py.format_d v)] /\
   sent (write_close_duration line v) d
     [SendCmd ("shut=" ++ Py.format_d v)]) /\
  (answer line (wire (after (write_trigger_mode line v) d)) i "trig?"
   = inr (Py.format_d v) ->
   result (read_trigger_mode line) (after (write_trigger_mode line v) d)
   = Return v) /\
  (answer line (wire (after (write_extrigger_mode line v) d)) i "xto?"
   = inr (Py.format_d v) ->
   result (read_extrigger_mode line) (after (write_extrigger_mode line v) d)
   = Return v) /\
  (answer line (wire (after (write_repeat_count line v) d)) i "rep?"
   = inr (Py.format_d v) ->
   result (read_repeat_count line) (after (write_repeat_count line v) d)
   = Return v) /\
  (answer line (wire (after (write_open_duration line v) d)) i "open?"
   = inr (Py.format_d v) ->
   result (read_open_duration line) (after (write_open_duration line v) d)
   = Return v) /\
  (answer line (wire (after (write_close_duration line v) d)) i "shut?"
   = inr (Py.format_d v) ->
   result (read_close_duration line) (after (write_close_duration line v) d)
   = Return v).
Proof.
  intros Hsc.
  assert (forall c, sent (sendcmd line c) d [SendCmd c]) as Hsent
    by (intros c; unfold sent; now rewrite (sendcmd_after line d i c Hsc)).
  split.
  - repeat match goal with |- _ /\ _ => split end; exact (Hsent _).
  - repeat match goal with |- _ /\ _ => split end;
      exact (write_read_echo d i _ _ v Hsc).
Qed.

(** X3. What [int] skips around a reply does not matter to a read: when
    the reply is the text [s] with characters of the codes 9 to 13, 32,
    133 or 160 before and after it, each of the five plain integer reads
    ends exactly as [int(s)] does, with the value of [s] or with
    [ValueError]. *)
Theorem read_ignores_padding
  (d : ThorlabsSC10) (i : SC10) (l s t : string) :
  sc d = Some i ->
  all_space l = true ->
  all_space t = true ->
  let ends (q : string) :=
    (match Py.int s with Some n => Return n | None => Raise ValueError end,
     with_wire (wire d ++ [Query q]) d) in
  (answer line (wire d) i "trig?" = inr (l ++ s ++ t) ->
   read_trigger_mode line d = ends "trig?") /\
  (answer line (wire d) i "xto?" = inr (l ++ s ++ t) ->
   read_extrigger_mode line d = ends "xto?") /\
  (answer line (wire d) i "rep?" = inr (l ++ s ++ t) ->
   read_repeat_count line d = ends "rep?") /\
  (answer line (wire d) i "open?" = inr (l ++ s ++ t) ->
   read_open_duration line d = ends "open?") /\
  (answer line (wire d) i "shut?" = inr (l ++ s ++ t) ->
   read_close_duration line d = ends "shut?").
Proof.
  intros Hsc Hl Ht ends.
  assert (forall q, answer line (wire d) i q = inr (l ++ s ++ t) ->
            bind (query line q) int d = ends q) as Hq.
  { intros q Hans.
    rewrite (bind_return _ _ _ _ _ (query_reply _ _ _ _ _ Hsc Hans)).
    unfold int, ends. rewrite (int_padding l s t Hl Ht).
    now destruct (Py.int s). }
  repeat match goal with |- _ /\ _ => split end; exact (Hq _).
Qed.

(** X4. With no instrument bound, as after a port that did not open or
    after [delete_device], whatever goes to the controller raises
    [AttributeError] with nothing put on the line and the instance
    untouched: the seven attribute reads that query it, every attribute
    write, and the refresh.  The three status reads do not go to the
    controller and return the cached fields normally.  [store_config] and
    [restore_config] write their debug message and raise; [enable] and
    [disable] raise when the cached flag tells them to toggle, and return
    normally when it tells them not to. *)
Theorem unbound_instrument_raises (d : ThorlabsSC10) :
  sc d = None ->
  let stop {A} : outcome A * ThorlabsSC10 :=
    (Raise (AttributeError "sc"), d) in
  let stop_after (msg : string) : outcome unit * ThorlabsSC10 :=
    (Raise (AttributeError "sc"),
     with_streams (streams d ++ [(Debug, msg)]) d) in
  (read_baudrate line d = stop /\ read_mode line d = stop /\
   read_trigger_mode line d = stop /\ read_extrigger_mode line d = stop /\
   read_repeat_count line d = stop /\ read_open_duration line d = stop /\
   read_close_duration line d = stop /\
   always_executed_hook line d = stop) /\
  (read_enabled d = (Return (__enabled d), d) /\
   read_open d = (Return (__open d), d) /\
   read_interlock d = (Return (__interlock d), d)) /\
  (forall v,
     write_baudrate line v d = stop /\ write_mode line v d = stop /\
     write_trigger_mode line v d = stop /\
     write_extrigger_mode line v d = stop /\
     write_repeat_count line v d = stop /\
     write_open_duration line v d = stop /\
     write_close_duration line v d = stop) /\
  (store_config line d = stop_after "store config" /\
   restore_config line d = stop_after "load config") /\
  (__enabled d = false ->
   enable line d = stop_after "enable shutter" /\
   disable line d
   = (Return tt,
      with_streams (streams d ++ [(Debug, "shutter already disabled")]) d))
  /\
  (__enabled d = true ->
   disable line d = stop_after "disable shutter" /\
   enable line d
   = (Return tt,
      with_streams (streams d ++ [(Debug, "shutter already enabled")]) d)).
Proof.
  intros Hsc stop stop_after. subst stop stop_after.
  destruct d as [p b t e o k s x u l w]. cbn [sc] in Hsc. subst s.
  repeat match goal with
         | |- _ /\ _ => split
         | |- forall _ : Z, _ => intros ?
         | |- _ = _ -> _ => let H := fresh in intros H; cbn in H; subst
         end; reflexivity.
Qed.

(** X5. A read hands on what goes wrong and does not try again: when the
    one query it sends fails, the read raises the instrument's exception;
    when the reply is no integer literal, it raises [ValueError].  In both
    cases exactly that one query is on the line and nothing else of the
    instance has changed. *)
Theorem read_errors_propagate (d : ThorlabsSC10) (i : SC10) :
  sc d = Some i ->
  read_propagates line "baud?" (read_baudrate line) d i /\
  read_propagates line "mode?" (read_mode line) d i /\
  read_propagates line "trig?" (read_trigger_mode line) d i /\
  read_propagates line "xto?" (read_extrigger_mode line) d i /\
  read_propagates line "rep?" (read_repeat_count line) d i /\
  read_propagates line "open?" (read_open_duration line) d i /\
  read_propagates line "shut?" (read_close_duration line) d i.
Proof.
  intros Hsc.
  repeat match goal with |- _ /\ _ => split end;
    (split;
     [ intros e Hans;
       unfold read_baudrate, read_mode, read_trigger_mode,
         read_extrigger_mode, read_repeat_count, read_open_duration,
         read_close_duration;
       now rewrite (bind_raise_at _ _ _ _ _ (query_error _ _ _ _ _ Hsc Hans))
     | intros reply Hans Hint;
       unfold read_baudrate, read_mode, read_trigger_mode,
         read_extrigger_mode, read_repeat_count, read_open_duration,
         read_close_duration;
       rewrite (bind_return _ _ _ _ _ (query_reply _ _ _ _ _ Hsc Hans));
       unfold int; now rewrite Hint ]).
Qed.

(** X6. A write or a command hands on what goes wrong and does not try
    again: it ends as the instrument takes the one command it sends,
    normally or with the instrument's exception, and that one command is
    on the line either way.  The attribute writes change nothing else;
    the four commands have written their debug message before. *)
Theorem write_errors_propagate (d : ThorlabsSC10) (i : SC10) :
  sc d = Some i ->
  let logged (msg : string) :=
    with_streams (streams d ++ [(Debug, msg)]) d in
  (forall v,
     write_propagates line ("baud=" ++ Py.format_d v)
       (write_baudrate line v) d d i /\
     write_propagates line ("mode=" ++ Py.format_d (v + 1))
       (write_mode line v) d d i /\
     write_propagates line ("trig=" ++ Py.format_d v)
       (write_trigger_mode line v) d d i /\
     write_propagates line ("xto=" ++ Py.format_d v)
       (write_extrigger_mode line v) d d i /\
     write_propagates line ("rep=" ++ Py.format_d v)
       (write_repeat_count line v) d d i /\
     write_propagates line ("open=" ++ Py.format_d v)
       (write_open_duration line v) d d i /\
     write_propagates line ("shut=" ++ Py.format_d v)
       (write_close_duration line v) d d i) /\
  write_propagates line "savp" (store_config line) d
    (logged "store config") i /\
  write_propagates line "resp" (restore_config line) d
    (logged "load config") i /\
  (__enabled d = false ->
   write_propagates line "ens" (enable line) d (logged "enable shutter") i)
  /\
  (__enabled d = true ->
   write_propagates line "ens" (disable line) d
     (logged "disable shutter") i).
Proof.
  intros Hsc logged. subst logged.
  destruct d as [p b t e o k s x u l w]. cbn [sc] in Hsc. subst s.
  repeat match goal with
         | |- _ /\ _ => split
         | |- forall _ : Z, _ => intros ?
         | |- _ = _ -> _ => let H := fresh in intros H; cbn in H; subst
         end;
    exec; destruct (accept line _ _ _); reflexivity.
Qed.

(** X8. [enable] and [disable] go by the cached flag alone, and neither
    updates it.  With the flag false and no refresh in between, two
    [enable] send [ens] twice, and a [disable] after an [enable] sends
    nothing, so the one [ens] stands; with the flag true the same holds
    with the two commands exchanged. *)
Theorem toggle_trusts_cached_flag (d : ThorlabsSC10) (i : SC10) :
  sc d = Some i ->
  (__enabled d = false ->
   wire (after (enable line) (after (enable line) d))
   = (wire d ++ [SendCmd "ens"; SendCmd "ens"])%list /\
   wire (after (disable line) (after (enable line) d))
   = (wire d ++ [SendCmd "ens"])%list) /\
  (__enabled d = true ->
   wire (after (disable line) (after (disable line) d))
   = (wire d ++ [SendCmd "ens"; SendCmd "ens"])%list /\
   wire (after (enable line) (after (disable line) d))
   = (wire d ++ [SendCmd "ens"])%list).
Proof.
  intros Hsc.
  destruct d as [p b t e o k s x u l w]. cbn [sc] in Hsc. subst s.
  split; intros He; cbn [__enabled] in He; subst e; split;
    exec; destruct (accept line _ _ _); exec;
    try destruct (accept line _ _ _);
    exec; now rewrite <- ?app_assoc.
Qed.


(** *** What an attribute access leaves standing *)

Section Kept.

Context {B : Type} (f : ThorlabsSC10 -> B).

Lemma kept_ret {A} (a : A) : keeps f (ret a).
Proof. intros d. reflexivity. Qed.

Lemma kept_raise {A} (e : exn) : keeps f (@raise A e).
Proof. intros d. reflexivity. Qed.

Lemma kept_gets {A} (g : ThorlabsSC10 -> A) : keeps f (gets g).
Proof. intros d. reflexivity. Qed.

Lemma kept_bind {A C} (m : M A) (k : A -> M C) :
  keeps f m -> (forall a, keeps f (k a)) -> keeps f (bind m k).
Proof.
  intros Hm Hk d. specialize (Hm d). unfold after, bind in *.
  destruct (m d) as [[a|e] d1]; cbn [snd] in *.
  - rewrite <- Hm. apply Hk.
  - exact Hm.
Qed.

Lemma kept_int s : keeps f (int s).
Proof.
  unfold int. destruct (Py.int s); [apply kept_ret | apply kept_raise].
Qed.

Lemma kept_self_sc : keeps f self_sc.
Proof. intros d. unfold after, self_sc. now destruct (sc d). Qed.

Lemma kept_if {A} (b : bool) (m1 m2 : M A) :
  keeps f m1 -> keeps f m2 -> keeps f (if b then m1 else m2).
Proof. now destruct b. Qed.

(** Steps that touch only the line or only the logging streams keep every
    observation that looks at neither. *)
Hypothesis f_wire : forall l d, f (with_wire l d) = f d.
Hypothesis f_streams : forall l d, f (with_streams l d) = f d.

Lemma kept_log lvl msg : keeps f (log lvl msg).
Proof. intros d. apply f_streams. Qed.

Lemma kept_query cmd : keeps f (query line cmd).
Proof.
  apply kept_bind; [apply kept_self_sc|].
  intros i d. unfold after.
  destruct (answer line (wire d) i cmd); apply f_wire.
Qed.

Lemma kept_sendcmd cmd : keeps f (sendcmd line cmd).
Proof.
  apply kept_bind; [apply kept_self_sc|].
  intros i d. unfold after.
  destruct (accept line (wire d) i cmd); apply f_wire.
Qed.

End Kept.

(** Walk down a method body, one statement at a time. *)
Ltac kept :=
  repeat first
    [ apply kept_ret | apply kept_raise | apply kept_gets | apply kept_int
    | apply kept_log; reflexivity
    | apply kept_query; reflexivity
    | apply kept_sendcmd; reflexivity
    | progress unfold info_stream, error_stream, debug_stream
    | apply kept_if
    | apply kept_bind; [ | intros ? ] ].

(** X7. No attribute read, attribute write or command touches what is
    standing about the instance: the device properties, the binding of
    the instrument, and the Tango state and status are after it what they
    were before, however it ends.  In particular a failing access never
    puts the device into another state. *)
Theorem access_keeps_standing :
  (forall v,
     keeps standing (write_baudrate line v) /\
     keeps standing (write_mode line v) /\
     keeps standing (write_trigger_mode line v) /\
     keeps standing (write_extrigger_mode line v) /\
     keeps standing (write_repeat_count line v) /\
     keeps standing (write_open_duration line v) /\
     keeps standing (write_close_duration line v)) /\
  (keeps standing (enable line) /\ keeps standing (disable line) /\
   keeps standing (store_config line) /\
   keeps standing (restore_config line)) /\
  (keeps standing read_enabled /\ keeps standing read_open /\
   keeps standing read_interlock /\
   keeps standing (read_baudrate line) /\ keeps standing (read_mode line) /\
   keeps standing (read_trigger_mode line) /\
   keeps standing (read_extrigger_mode line) /\
   keeps standing (read_repeat_count line) /\
   keeps standing (read_open_duration line) /\
   keeps standing (read_close_duration line)).
Proof.
  repeat match goal with
         | |- _ /\ _ => split
         | |- forall _ : Z, _ => intros ?
         end;
    unfold write_baudrate, write_mode, write_trigger_mode,
      write_extrigger_mode, write_repeat_count, write_open_duration,
      write_close_duration, enable, disable, store_config, restore_config,
      read_enabled, read_open, read_interlock, read_baudrate, read_mode,
      read_trigger_mode, read_extrigger_mode, read_repeat_count,
      read_open_duration, read_close_duration;
    kept.
Qed.

(** *** A refresh that fails part of the way *)

(** No integer for a query: the query fails, or its reply does not
    read. *)
Lemma no_answer_cases d i past cmd :
  no_answer line d i past cmd ->
  (exists e, answer line (wire d ++ past) i cmd = inl e) \/
  (exists reply, answer line (wire d ++ past) i cmd = inr reply /\
                 Py.int reply = None).
Proof.
  intros Hno. destruct (answer line (wire d ++ past) i cmd) as [e|r] eqn:Ha.
  - left. now exists e.
  - right. exists r. split; [reflexivity|].
    destruct (Py.int r) as [n|] eqn:Hi; [|reflexivity].
    exfalso. apply (Hno n). exists r. now split.
Qed.

(** X10. A refresh that fails leaves a half-updated instance: the cached
    fields whose queries were answered before the failure hold the new
    values, the others hold the old ones, and state and status are never
    touched.  So after a refresh that fails at [interlock?] the open flag
    is new while state and status still tell of the refresh before. *)
Theorem refresh_failure_is_partial (d : ThorlabsSC10) (i : SC10) :
  sc d = Some i ->
  let d' := after (always_executed_hook line) d in
  let failed := raised (result (always_executed_hook line) d) in
  (no_answer line d i [] "ens?" ->
   failed /\ cached d' = cached d /\
   state d' = state d /\ status d' = status d) /\
  (forall n1,
     answers line d i [] "ens?" n1 ->
     no_answer line d i [Query "ens?"] "closed?" ->
     failed /\ cached d' = (Py.bool n1, __open d, __interlock d) /\
     state d' = state d /\ status d' = status d) /\
  (forall n1 n2,
     answers line d i [] "ens?" n1 ->
     answers line d i [Query "ens?"] "closed?" n2 ->
     no_answer line d i [Query "ens?"; Query "closed?"] "interlock?" ->
     failed /\
     cached d' = (Py.bool n1, negb (Py.bool n2), __interlock d) /\
     state d' = state d /\ status d' = status d).
Proof.
  intros Hsc d' failed. subst d' failed.
  unfold raised, result, after, always_executed_hook.
  cbv [bind int ret raise modify gets set_state set_status].
  split; [|split].
  - intros Hno.
    destruct (no_answer_cases _ _ _ _ Hno) as [(e & H1)|(r1 & H1 & I1)];
      rewrite app_nil_r in H1.
    + erewrite query_error; [ | exact Hsc | exact H1 ].
      repeat split. now exists e.
    + erewrite query_reply; [ | exact Hsc | exact H1 ]. rewrite I1.
      repeat split. now exists ValueError.
  - intros n1 (r1 & H1 & I1) Hno. rewrite app_nil_r in H1.
    erewrite query_reply; [ | exact Hsc | exact H1 ]. rewrite I1.
    destruct (no_answer_cases _ _ _ _ Hno) as [(e & H2)|(r2 & H2 & I2)].
    + erewrite query_error; [ | exact Hsc | exact H2 ].
      repeat split. now exists e.
    + erewrite query_reply; [ | exact Hsc | exact H2 ]. rewrite I2.
      repeat split. now exists ValueError.
  - intros n1 n2 (r1 & H1 & I1) (r2 & H2 & I2) Hno. rewrite app_nil_r in H1.
    erewrite query_reply; [ | exact Hsc | exact H1 ]. rewrite I1.
    erewrite query_reply; [ | exact Hsc | exact H2 ]. rewrite I2.
    destruct (no_answer_cases _ _ _ _ Hno) as [(e & H3)|(r3 & H3 & I3)];
      change [Query "ens?"; Query "closed?"]
        with ([Query "ens?"] ++ [Query "closed?"])%list in H3;
      rewrite app_assoc in H3.
    + erewrite query_error; [ | exact Hsc | exact H3 ].
      repeat split. now exists e.
    + erewrite query_reply; [ | exact Hsc | exact H3 ]. rewrite I3.
      repeat split. now exists ValueError.
Qed.

(** X11. However a refresh ends, what it has put on the line is an
    initial part of [ens?], [closed?], [interlock?], in this order: no
    query is repeated, skipped or sent out of turn.  It returns normally
    only when all three are on the line. *)
Theorem refresh_traffic (d : ThorlabsSC10) :
  exists k,
    (k <= 3)%nat /\
    sent (always_executed_hook line) d
      (firstn k [Query "ens?"; Query "closed?"; Query "interlock?"]) /\
    (forall o, result (always_executed_hook line) d = Return o ->
               k = 3%nat).
Proof.
  unfold sent, result, after, always_executed_hook.
  cbv [bind int ret raise modify gets set_state set_status].
  destruct (sc d) as [i|] eqn:Hsc;
    [ | exists 0%nat; rewrite (query_unbound line d _ Hsc);
        cbn [fst snd firstn]; rewrite app_nil_r;
        repeat split; [lia | discriminate] ].
  destruct (answer line (wire d) i "ens?") as [e|r1] eqn:H1;
    [ exists 1%nat; erewrite query_error; [ | exact Hsc | exact H1 ];
      repeat split; [lia | discriminate] | ].
  erewrite query_reply; [ | exact Hsc | exact H1 ].
  destruct (Py.int r1) as [n1|];
    [ | exists 1%nat; repeat split; [lia | discriminate] ].
  destruct (answer line (wire d ++ [Query "ens?"]) i "closed?")
    as [e|r2] eqn:H2;
    [ exists 2%nat; erewrite query_error; [ | exact Hsc | exact H2 ];
      repeat split;
      [ lia | project; now rewrite <- !app_assoc | discriminate ] | ].
  erewrite query_reply; [ | exact Hsc | exact H2 ].
  destruct (Py.int r2) as [n2|];
    [ | exists 2%nat; repeat split;
        [ lia | project; now rewrite <- !app_assoc | discriminate ] ].
  exists 3%nat.
  destruct (answer line ((wire d ++ [Query "ens?"]) ++ [Query "closed?"]) i
              "interlock?") as [e|r3] eqn:H3;
    [ erewrite query_error; [ | exact Hsc | exact H3 ];
      repeat split; [ lia | project; now rewrite <- !app_assoc ] | ].
  erewrite query_reply; [ | exact Hsc | exact H3 ].
  destruct (Py.int r3) as [n3|];
    [ | repeat split; [ lia | project; now rewrite <- !app_assoc ] ].
  cbn [__open with_interlock with_wire with_open with_enabled].
  destruct (negb (Py.bool n2)); repeat split;
    first [ lia | project; now rewrite <- !app_assoc ].
Qed.

(** X12. The three status reads never go to the line: after a refresh
    that completes they return what the refresh stored and leave the
    instance as it is.  An [enable] or [disable] that follows does not
    change what [read_enabled] returns; only the next refresh does. *)
Theorem status_reads_are_cached
  (d : ThorlabsSC10) (i : SC10) (n1 n2 n3 : Z) :
  sc d = Some i ->
  answers line d i [] "ens?" n1 ->
  answers line d i [Query "ens?"] "closed?" n2 ->
  answers line d i [Query "ens?"; Query "closed?"] "interlock?" n3 ->
  let d' := after (always_executed_hook line) d in
  read_enabled d' = (Return (Py.bool n1), d') /\
  read_open d' = (Return (negb (Py.bool n2)), d') /\
  read_interlock d' = (Return (Py.bool n3), d') /\
  result read_enabled (after (enable line) d') = Return (Py.bool n1) /\
  result read_enabled (after (disable line) d') = Return (Py.bool n1).
Proof.
  intros Hsc H1 H2 H3 d'.
  assert (cached d' = (Py.bool n1, negb (Py.bool n2), Py.bool n3)) as Hc.
  { subst d'. unfold after.
    now rewrite (refresh_run line d i n1 n2 n3 Hsc H1 H2 H3). }
  injection Hc as He Ho Hi.
  assert (keeps __enabled (enable line)) as Ken by (unfold enable; kept).
  assert (keeps __enabled (disable line)) as Kdis by (unfold disable; kept).
  unfold read_enabled, read_open, read_interlock, result, gets.
  cbn [fst]. rewrite (Ken d'), (Kdis d'), He, Ho, Hi.
  repeat split.
Qed.

End Beyond.

(** ** More scenarios on the bench *)

Module Further.

Import Bench Faults.

(** X1 at the 115200 member on the working controller. *)
Lemma baudrate_round_trip_witness :
  sc running = Some bound /\
  answer controller (wire (after (write_baudrate controller 1) running))
    bound "baud?" = inr (Py.format_d 1) /\
  result (read_baudrate controller)
    (after (write_baudrate controller 1) running)
  = Return BaudRate._115200.
Proof.
  split; [reflexivity|]. split; [reflexivity|].
  destruct (baudrate_round_trip controller running bound 1 eq_refl eq_refl)
    as (_ & _ & _ & Hr & _).
  exact (Hr BaudRate._115200 eq_refl).
Defined.

(** X2 on the working controller, with a repeat count out of range. *)
Lemma literal_round_trip_witness :
  sc running = Some bound /\
  wire (after (write_repeat_count controller 150) running)
  = (wire running ++ [SendCmd "rep=150"])%list /\
  result (read_repeat_count controller)
    (after (write_repeat_count controller 150) running)
  = Return 150.
Proof.
  split; [reflexivity|].
  destruct (literal_round_trip controller running bound 150 eq_refl)
    as ((_ & _ & Hsent & _) & _ & _ & Hrep & _).
  split; [exact Hsent | apply Hrep; reflexivity].
Defined.

(** X3 on a controller whose reply to [rep?] is padded. *)
Lemma read_ignores_padding_witness :
  sc attached = Some bound /\
  all_space " " = true /\
  all_space (String "013" (String "010" EmptyString)) = true /\
  read_repeat_count (answers_only ["rep?"] padded_seven) attached
  = (Return 7, with_wire (wire attached ++ [Query "rep?"]) attached).
Proof.
  split; [reflexivity|]. split; [reflexivity|]. split; [reflexivity|].
  destruct (read_ignores_padding (answers_only ["rep?"] padded_seven)
              attached bound " " "7"
              (String "013" (String "010" EmptyString))
              eq_refl eq_refl eq_refl)
    as (_ & _ & Hrep & _).
  apply Hrep. reflexivity.
Defined.

(** X4 on the instance that [delete_device] leaves. *)
Lemma unbound_instrument_raises_witness :
  sc (after delete_device running) = None /\
  read_mode controller (after delete_device running)
  = (Raise (AttributeError "sc"), after delete_device running) /\
  read_open (after delete_device running)
  = (Return false, after delete_device running) /\
  write_mode controller 2 (after delete_device running)
  = (Raise (AttributeError "sc"), after delete_device running).
Proof.
  split; [reflexivity|].
  destruct (unbound_instrument_raises controller
              (after delete_device running) eq_refl)
    as ((_ & Hr & _) & (_ & Ho & _) & Hw & _).
  split; [exact Hr|]. split; [exact Ho | exact (proj1 (proj2 (Hw 2)))].
Defined.

(** X5 on a line where nothing answers. *)
Lemma read_errors_propagate_witness :
  sc attached = Some bound /\
  read_mode silent attached
  = (Raise (InstrumentError "timeout"),
     with_wire (wire attached ++ [Query "mode?"]) attached).
Proof.
  split; [reflexivity|].
  destruct (read_errors_propagate silent attached bound eq_refl)
    as (_ & (Hm & _) & _).
  apply Hm. reflexivity.
Defined.

(** X6 on a line where nothing answers. *)
Lemma write_errors_propagate_witness :
  sc attached = Some bound /\
  write_mode silent 3 attached
  = (Raise (InstrumentError "timeout"),
     with_wire (wire attached ++ [SendCmd "mode=4"]) attached).
Proof.
  split; [reflexivity|].
  destruct (write_errors_propagate silent attached bound eq_refl)
    as (Hw & _).
  exact (proj1 (proj2 (Hw 3))).
Defined.

(** X8 on the running instance, whose cached flag is false. *)
Lemma toggle_trusts_cached_flag_witness :
  sc running = Some bound /\
  wire (after (disable controller) (after (enable controller) running))
  = (wire running ++ [SendCmd "ens"])%list.
Proof.
  split; [reflexivity|].
  destruct (toggle_trusts_cached_flag controller running bound eq_refl)
    as (Hf & _).
  exact (proj2 (Hf eq_refl)).
Defined.

(** X10 on a controller that answers [ens?] and nothing else. *)
Lemma refresh_failure_is_partial_witness :
  sc attached = Some bound /\
  cached (after (always_executed_hook (answers_only ["ens?"] "1")) attached)
  = (true, false, false) /\
  state (after (always_executed_hook (answers_only ["ens?"] "1")) attached)
  = UNKNOWN.
Proof.
  split; [reflexivity|].
  destruct (refresh_failure_is_partial (answers_only ["ens?"] "1")
              attached bound eq_refl) as (_ & Hmid & _).
  assert (answers (answers_only ["ens?"] "1") attached bound [] "ens?" 1)
    as H1 by (exists "1"; split; reflexivity).
  assert (no_answer (answers_only ["ens?"] "1") attached bound
            [Query "ens?"] "closed?") as H2
    by (intros n (r & Ha & _); discriminate Ha).
  destruct (Hmid 1 H1 H2) as (_ & Hc & Hs & _).
  split; [exact Hc | exact Hs].
Defined.

(** X12 on the working controller. *)
Lemma status_reads_are_cached_witness :
  sc running = Some bound /\
  result read_open (after (always_executed_hook controller) running)
  = Return false /\
  result read_enabled
    (after (enable controller)
       (after (always_executed_hook controller) running))
  = Return false.
Proof.
  split; [reflexivity|].
  destruct (status_reads_are_cached controller running bound 0 1 0 eq_refl)
    as (_ & Ho & _ & He & _);
    [ eexists; split; reflexivity | eexists; split; reflexivity
    | eexists; split; reflexivity | ].
  split; [exact (f_equal fst Ho) | exact He].
Defined.

(** A reply that starts with the separator of code 28 is no literal, and
    the read raises; one that starts with the no-break space, code 160,
    reads as the digits after it. *)
Example read_mode_separator_and_no_break_space :
  read_mode (answers_only ["mode?"] (String "028" "5")) attached
  = (Raise ValueError, with_wire [Query "mode?"] attached) /\
  read_mode (answers_only ["mode?"] (String "160" "5")) attached
  = (Return 4, with_wire [Query "mode?"] attached).
Proof. vm_compute. split; reflexivity. Qed.

End Further.
